(** * examples/test-deno-server.py: the Python client that exercises the
      Deno Hypha WebSocket server

    The script is a coroutine [test_deno_server] made of awaited remote
    calls wrapped in [try]/[except] blocks, and a [__main__] block that
    turns its result into the process exit status.  The embedding below
    is state passing over a [world]: Python statements are functions
    from a world to a completion (normal, [return], or a propagating
    exception) and a new world; every awaited remote call and every
    [print] is appended to the world's event log in program order.

    The answers of the server are not part of the script: they are the
    fields of a record [remote], over which every statement quantifies.
    An awaited call either resolves to a value or raises an [Exception]
    carrying a message (what [str(e)] shows); looking a method up on the
    connection and calling it are one such step, since both sit inside
    the same [try].  [print], the f-strings and the reads of
    [server.config.workspace], [server.config.client_id] and
    [client_service.id] on the objects [hypha_rpc] hands out do not
    raise. *)

From Stdlib Require Import ZArith QArith PrimFloat FloatOps SpecFloat.
From stdpp Require Import base strings list gmap.

Set Warnings "-clear-no-such-hyp".
Set Warnings "-inexact-float".

Local Open Scope Z_scope.
Local Open Scope string_scope.
Local Open Scope list_scope.

(** ** Values exchanged with the server *)

#[warnings="-register-all"]
Inductive value : Type :=
| VNone
| VBool (b : bool)
| VInt (z : Z)
| VStr (s : string)
| VList (items : list value)
| VDict (items : list (string * value)).

(** An instance of [Exception]; [message] is what [{e}] formats to. *)
Record exn : Type := Exception { message : string }.

(** The objects handed out by [hypha_rpc]. *)
Module hypha_rpc.
Record Config : Type := { workspace : value; client_id : value }.
(** What [connect_to_server] resolves to. *)
Record Server : Type := { config : Config }.
(** What [get_service] and [register_service] resolve to. *)
Record Service : Type := { id : value }.
End hypha_rpc.
Import hypha_rpc.

(** The dictionary passed to [register_service] (lines 78-91): four data
    entries and two function entries. *)
Record service_api : Type := {
  api_id : string;
  api_name : string;
  api_description : string;
  api_config : gmap string string;
  api_compute_square : Z → Z;
  api_get_python_info : unit → gmap string string
}.

(** ** Events and worlds *)

Inductive remote_call : Type :=
| ConnectToServer (cfg : gmap string string)
| Echo (server : Server) (msg : string)
| GetServerInfo (server : Server)
| Hello (server : Server) (name : string)
| GetTime (server : Server)
| GetService (server : Server) (service_id : string)
| ServiceHello (service : Service) (name : string)
| RegisterService (server : Server) (api : service_api)
| ComputeSquare (service : Service) (n : Z).

Inductive payload : Type :=
| PServer (s : Server)
| PService (s : Service)
| PValue (v : value).

Inductive event : Type :=
| Print (line : string)
| Await (c : remote_call) (r : exn + payload).

(** The part of the machine a process can touch: the interleaved log of
    what it printed on standard output and which remote calls it
    awaited, its standard error, the file system and the environment
    variables. *)
Record world : Type := World {
  events : list event;
  stderr : list string;
  files : gmap string string;
  environ : gmap string string
}.

Definition log (ev : event) (w : world) : world :=
  {| events := events w ++ [ev];
     stderr := stderr w;
     files := files w;
     environ := environ w |}.

Definition traceback (e : exn) (w : world) : world :=
  {| events := events w;
     stderr := stderr w ++ [message e];
     files := files w;
     environ := environ w |}.

(** The lines printed on standard output, and the remote calls awaited. *)
Definition stdout (w : world) : list string :=
  omap (λ ev, match ev with Print l => Some l | Await _ _ => None end) (events w).

Definition calls (l : list event) : list remote_call :=
  omap (λ ev, match ev with Await c _ => Some c | Print _ => None end) l.

Inductive method : Type :=
| m_connect_to_server | m_echo | m_get_server_info | m_hello | m_get_time
| m_get_service | m_register_service | m_compute_square.

Global Instance method_eq_dec : EqDecision method.
Proof. solve_decision. Defined.

Definition method_of (c : remote_call) : method :=
  match c with
  | ConnectToServer _ => m_connect_to_server
  | Echo _ _ => m_echo
  | GetServerInfo _ => m_get_server_info
  | Hello _ _ | ServiceHello _ _ => m_hello
  | GetTime _ => m_get_time
  | GetService _ _ => m_get_service
  | RegisterService _ _ => m_register_service
  | ComputeSquare _ _ => m_compute_square
  end.

(** ** Statements *)

Inductive completion (A : Type) : Type :=
| Normal (a : A)
| Return (v : bool)
| Raise (e : exn).
Arguments Normal {A} a.
Arguments Return {A} v.
Arguments Raise {A} e.

Definition Py (A : Type) : Type := world → completion A * world.

Definition pass {A} (a : A) : Py A := λ w, (Normal a, w).

Definition seq {A B} (m : Py A) (k : A → Py B) : Py B := λ w,
  match m w with
  | (Normal a, w') => k a w'
  | (Return v, w') => (Return v, w')
  | (Raise e, w') => (Raise e, w')
  end.

Global Instance Py_ret : MRet Py := @pass.
Global Instance Py_bind : MBind Py := λ A B k m, seq m k.

(** [return v] *)
Definition return_ {A} (v : bool) : Py A := λ w, (Return v, w).

(** [print(line)] *)
Definition print (line : string) : Py unit := λ w, (Normal tt, log (Print line) w).

(** [await c], where the peer answers [r]. *)
Definition await {T} (c : remote_call) (inj : T → payload) (r : exn + T) : Py T := λ w,
  match r with
  | inl e => (Raise e, log (Await c (inl e)) w)
  | inr v => (Normal v, log (Await c (inr (inj v))) w)
  end.

(** [try: body  except Exception as e: handler e] *)
Definition try_except {A} (body : Py A) (handler : exn → Py A) : Py A := λ w,
  match body w with
  | (Raise e, w') => handler e w'
  | r => r
  end.

(** Newline, written [\n] in the script's literals. *)
Definition LF : string := String (Ascii.ascii_of_nat 10) EmptyString.

(** ** The service handlers (lines 85-90) *)

(** [lambda n: n * n] *)
Definition compute_square (n : Z) : Z := n * n.

(** A number as a caller can pass it to the handler: a Python [int],
    which has no bound, or a [float], which is a binary64. *)
Inductive number : Type :=
| Int (z : Z)
| Float (f : float).

(** [lambda n: n * n] on numbers.  Both operands are the same object, so
    [*] is the product of integers on an [int] and the binary64 product,
    rounded to nearest, on a [float]. *)
Definition compute_square_number (n : number) : number :=
  match n with
  | Int z => Int (compute_square z)
  | Float f => Float (f * f)%float
  end.

(** The rational a number stands for; an infinity or a NaN stands for
    none. *)
Definition exact_value (n : number) : option Q :=
  match n with
  | Int z => Some (inject_Z z)
  | Float f =>
      match Prim2SF f with
      | S754_zero _ => Some 0%Q
      | S754_finite s m e =>
          Some ((if s then -1 else 1) * inject_Z (Z.pos m) * Qpower 2 e)%Q
      | S754_infinity _ | S754_nan => None
      end
  end.

(** "The handler returns [n * n]": what it returns at [n] stands for the
    product of what [n] stands for with itself. *)
Definition squares_exactly (n : number) : Prop :=
  ∃ x y, exact_value n = Some x ∧
         exact_value (compute_square_number n) = Some y ∧
         (y == x * x)%Q.

Section script.

(** The interpreter: [sys.version], [sys.platform], the built-in [repr]
    and the integer that [id(object())] yields in this run. *)
Variables sys_version sys_platform : string.
Variable py_repr : value → string.
Variable object_id : Z.

(** [str(v)], which f-strings apply: a string is shown as it is, the
    other values as their [repr]. *)
Definition py_str (v : value) : string :=
  match v with
  | VStr s => s
  | _ => py_repr v
  end.

(** [lambda: {"python_version": sys.version, "client": "Python",
    "platform": sys.platform}] *)
Definition get_python_info (_ : unit) : gmap string string :=
  <["platform" := sys_platform]>
    (<["client" := "Python"]>
      (<["python_version" := sys_version]> ∅)).

Definition python_client_service : service_api :=
  {| api_id := "python-client-service:built-in";
     api_name := "Python Client Service";
     api_description := "A built-in service registered from Python client";
     api_config := <["visibility" := "public"]> ∅;
     api_compute_square := compute_square;
     api_get_python_info := get_python_info |}.

(** The answers of the server to each awaited call. *)
Record remote : Type := {
  connect_to_server : gmap string string → exn + Server;
  server_echo : Server → string → exn + value;
  server_get_server_info : Server → exn + value;
  server_hello : Server → string → exn + value;
  server_get_time : Server → exn + value;
  server_get_service : Server → string → exn + Service;
  service_hello : Service → string → exn + value;
  server_register_service : Server → service_api → exn + Service;
  service_compute_square : Service → Z → exn + value
}.

Variable peer : remote.

Definition server_url : string := "http://localhost:9527".

(** [f"python-test-client-{id(object())}"] *)
Definition client_id : string := "python-test-client-" +:+ py_str (VInt object_id).

(** The dictionary of lines 27-31. *)
Definition connect_config : gmap string string :=
  <["client_id" := client_id]>
    (<["workspace" := "default"]>
      (<["server_url" := server_url]> ∅)).

(** Lines 38-43. *)
Definition echo_step (server : Server) : Py unit :=
  print (LF +:+ "🧪 Testing echo service...") ;;
  try_except
    (echo_response ← await (Echo server "Hello from Python client!") PValue
                       (server_echo peer server "Hello from Python client!");
     print ("Echo response: " +:+ py_str echo_response))
    (λ e, print ("Echo service error: " +:+ message e)).

(** Lines 46-51. *)
Definition server_info_step (server : Server) : Py unit :=
  print (LF +:+ "📊 Getting server info...") ;;
  try_except
    (server_info ← await (GetServerInfo server) PValue
                     (server_get_server_info peer server);
     print ("Server info: " +:+ py_str server_info))
    (λ e, print ("Server info error: " +:+ message e)).

(** Lines 54-73. *)
Definition hello_step (server : Server) : Py unit :=
  print (LF +:+ "🌍 Testing hello service...") ;;
  try_except
    (hello_response ← await (Hello server "Python Client") PValue
                        (server_hello peer server "Python Client");
     print ("Hello response: " +:+ py_str hello_response) ;;
     time_response ← await (GetTime server) PValue (server_get_time peer server);
     print ("Server time: " +:+ py_str time_response))
    (λ e,
     print ("Hello service error: " +:+ message e) ;;
     try_except
       (hello_service ← await (GetService server "hello-world") PService
                          (server_get_service peer server "hello-world");
        hello_response ← await (ServiceHello hello_service "Python Client") PValue
                           (service_hello peer hello_service "Python Client");
        print ("Hello response (via service): " +:+ py_str hello_response))
       (λ e2, print ("Hello service (via get_service) error: " +:+ message e2))).

(** Lines 76-100. *)
Definition registration_step (server : Server) : Py unit :=
  print (LF +:+ "📝 Registering Python client service...") ;;
  try_except
    (client_service ← await (RegisterService server python_client_service) PService
                        (server_register_service peer server python_client_service);
     print ("✅ Service registered with ID: " +:+ py_str (id client_service)) ;;
     square_result ← await (ComputeSquare client_service 7) PValue
                       (service_compute_square peer client_service 7);
     print ("Square(7) = " +:+ py_str square_result))
    (λ e, print ("Service registration error: " +:+ message e)).

(** Lines 19-109. *)
Definition test_deno_server : Py unit :=
  print "🔌 Connecting to Deno Hypha server..." ;;
  try_except
    (server ← await (ConnectToServer connect_config) PServer
                (connect_to_server peer connect_config);
     print "✅ Connected to Hypha server successfully!" ;;
     print ("📍 Connected to workspace: " +:+ py_str (workspace (config server))) ;;
     print ("🆔 Client ID: " +:+ py_str (hypha_rpc.client_id (config server))) ;;
     echo_step server ;;
     server_info_step server ;;
     hello_step server ;;
     registration_step server ;;
     print (LF +:+ "🎉 All tests completed successfully!") ;;
     print "Connection test passed - Deno WebSocket server is working! 🦕")
    (λ error,
     print ("❌ Failed to connect or execute: " +:+ message error) ;;
     return_ false) ;;
  return_ true.

(** [asyncio.run(coro)]: drives the coroutine to its end; the result
    is what it returned ([None] when it falls off its end) or the
    exception that escaped it. *)
Definition asyncio_run (coro : Py unit) (w : world) : (exn + option bool) * world :=
  match coro w with
  | (Normal _, w') => (inr None, w')
  | (Return v, w') => (inr (Some v), w')
  | (Raise e, w') => (inl e, w')
  end.

(** Truth value of the result in [if success:]. *)
Definition truthy (r : option bool) : bool :=
  match r with
  | Some b => b
  | None => false
  end.

(** Lines 111-118; the first component is the exit status of the
    process.  An exception that escapes the coroutine ends the process
    with a traceback on standard error and status 1. *)
Definition main (w : world) : Z * world :=
  match asyncio_run test_deno_server w with
  | (inr success, w1) =>
      if truthy success
      then (0, snd (print (LF +:+ "✅ Test passed!") w1))
      else (1, snd (print (LF +:+ "❌ Test failed!") w1))
  | (inl e, w1) => (1, traceback e w1)
  end.

(** ** Running the script as a process *)

(** A process starts with nothing printed and nothing awaited. *)
Definition boot (fs vars : gmap string string) : world :=
  {| events := []; stderr := []; files := fs; environ := vars |}.

(** What one execution of the script prints and awaits, in order, and
    the status it exits with. *)
Definition transcript (fs vars : gmap string string) : list event :=
  events (snd (main (boot fs vars))).

Definition exit_status (fs vars : gmap string string) : Z :=
  fst (main (boot fs vars)).

(** The methods awaited in a log, in order. *)
Definition methods (l : list event) : list method := method_of <$> calls l.

(** ** The log of each block, as a function of the server's answers

    [emit l w] is [w] after the events of [l] were logged one by one.
    The functions below read off, from the answers of the peer, the
    events each block of the script leaves; the lemmas of the next part
    show that the blocks do leave them. *)

Fixpoint emit (l : list event) (w : world) : world :=
  match l with
  | [] => w
  | ev :: l' => emit l' (log ev w)
  end.

(** A statement that, from every world, completes as [c] after logging [l]. *)
Definition runs {A} (m : Py A) (c : completion A) (l : list event) : Prop :=
  ∀ w, m w = (c, emit l w).

(** The answer of an awaited call as it is recorded in the log. *)
Definition answer {T} (inj : T → payload) (r : exn + T) : exn + payload :=
  match r with
  | inl e => inl e
  | inr v => inr (inj v)
  end.

Definition echo_log (server : Server) : list event :=
  let r := server_echo peer server "Hello from Python client!" in
  [Print (LF +:+ "🧪 Testing echo service...");
   Await (Echo server "Hello from Python client!") (answer PValue r);
   match r with
   | inr echo_response => Print ("Echo response: " +:+ py_str echo_response)
   | inl e => Print ("Echo service error: " +:+ message e)
   end].

Definition server_info_log (server : Server) : list event :=
  let r := server_get_server_info peer server in
  [Print (LF +:+ "📊 Getting server info...");
   Await (GetServerInfo server) (answer PValue r);
   match r with
   | inr server_info => Print ("Server info: " +:+ py_str server_info)
   | inl e => Print ("Server info error: " +:+ message e)
   end].

(** The fallback of lines 67-73. *)
Definition fallback_log (server : Server) : list event :=
  let r := server_get_service peer server "hello-world" in
  Await (GetService server "hello-world") (answer PService r) ::
  match r with
  | inl e2 => [Print ("Hello service (via get_service) error: " +:+ message e2)]
  | inr hello_service =>
      let r' := service_hello peer hello_service "Python Client" in
      [Await (ServiceHello hello_service "Python Client") (answer PValue r');
       match r' with
       | inr hello_response =>
           Print ("Hello response (via service): " +:+ py_str hello_response)
       | inl e2 => Print ("Hello service (via get_service) error: " +:+ message e2)
       end]
  end.

Definition hello_log (server : Server) : list event :=
  let r := server_hello peer server "Python Client" in
  Print (LF +:+ "🌍 Testing hello service...") ::
  Await (Hello server "Python Client") (answer PValue r) ::
  match r with
  | inl e => Print ("Hello service error: " +:+ message e) :: fallback_log server
  | inr hello_response =>
      let r' := server_get_time peer server in
      Print ("Hello response: " +:+ py_str hello_response) ::
      Await (GetTime server) (answer PValue r') ::
      match r' with
      | inr time_response => [Print ("Server time: " +:+ py_str time_response)]
      | inl e => Print ("Hello service error: " +:+ message e) :: fallback_log server
      end
  end.

Definition registration_log (server : Server) : list event :=
  let r := server_register_service peer server python_client_service in
  Print (LF +:+ "📝 Registering Python client service...") ::
  Await (RegisterService server python_client_service) (answer PService r) ::
  match r with
  | inl e => [Print ("Service registration error: " +:+ message e)]
  | inr client_service =>
      let r' := service_compute_square peer client_service 7 in
      [Print ("✅ Service registered with ID: " +:+ py_str (id client_service));
       Await (ComputeSquare client_service 7) (answer PValue r');
       match r' with
       | inr square_result => Print ("Square(7) = " +:+ py_str square_result)
       | inl e => Print ("Service registration error: " +:+ message e)
       end]
  end.

(** What [test_deno_server] logs before and after the optional steps
    once the connection is there. *)
Definition greeting_log (server : Server) : list event :=
  [Print "🔌 Connecting to Deno Hypha server...";
   Await (ConnectToServer connect_config) (inr (PServer server));
   Print "✅ Connected to Hypha server successfully!";
   Print ("📍 Connected to workspace: " +:+ py_str (workspace (config server)));
   Print ("🆔 Client ID: " +:+ py_str (hypha_rpc.client_id (config server)))].

Definition closing_log : list event :=
  [Print (LF +:+ "🎉 All tests completed successfully!");
   Print "Connection test passed - Deno WebSocket server is working! 🦕"].

Definition connected_log (server : Server) : list event :=
  greeting_log server ++ echo_log server ++ server_info_log server ++
  hello_log server ++ registration_log server ++ closing_log.

Definition refused_log (error : exn) : list event :=
  [Print "🔌 Connecting to Deno Hypha server...";
   Await (ConnectToServer connect_config) (inl error);
   Print ("❌ Failed to connect or execute: " +:+ message error)].

(** How many times a method is awaited in a log. *)
Definition times_awaited (m : method) (l : list event) : nat :=
  length (filter (λ m', m' = m) (methods l)).

(** ** Sample peers, used to exercise the statements below *)

Definition sample_repr (v : value) : string :=
  match v with
  | VNone => "None"
  | VBool true => "True"
  | VBool false => "False"
  | _ => "<value>"
  end.

Definition sample_server : Server :=
  {| config := {| workspace := VStr "default";
                  hypha_rpc.client_id := VStr "python-test-client-1" |} |}.

Definition sample_service (name : string) : Service := {| id := VStr name |}.

(** A server that answers every call; its echo gives back what it got. *)
Definition reference_peer : remote :=
  {| connect_to_server := λ _, inr sample_server;
     server_echo := λ _ s, inr (VStr s);
     server_get_server_info := λ _, inr (VDict [("name", VStr "Deno Hypha Server")]);
     server_hello := λ _ name, inr (VStr ("Hello, " +:+ name +:+ "!"));
     server_get_time := λ _, inr (VStr "2024-01-01T00:00:00.000Z");
     server_get_service := λ _ name, inr (sample_service name);
     service_hello := λ _ name, inr (VStr ("Hello, " +:+ name +:+ "!"));
     server_register_service := λ _ api, inr (sample_service (api_id api));
     service_compute_square := λ _ n, inr (VInt (n * n)) |}.

(** No server is listening. *)
Definition unreachable_peer : remote :=
  {| connect_to_server := λ _, inl (Exception "Connection refused");
     server_echo := server_echo reference_peer;
     server_get_server_info := server_get_server_info reference_peer;
     server_hello := server_hello reference_peer;
     server_get_time := server_get_time reference_peer;
     server_get_service := server_get_service reference_peer;
     service_hello := service_hello reference_peer;
     server_register_service := server_register_service reference_peer;
     service_compute_square := service_compute_square reference_peer |}.

(** A server that accepts the connection and fails every other call. *)
Definition bare_peer : remote :=
  {| connect_to_server := λ _, inr sample_server;
     server_echo := λ _ _, inl (Exception "echo is not available");
     server_get_server_info := λ _, inl (Exception "get_server_info is not available");
     server_hello := λ _ _, inl (Exception "hello is not available");
     server_get_time := λ _, inl (Exception "get_time is not available");
     server_get_service := λ _ _, inl (Exception "Service not found");
     service_hello := λ _ _, inl (Exception "hello is not available");
     server_register_service := λ _ _, inl (Exception "Permission denied");
     service_compute_square := λ _ _, inl (Exception "compute_square is not available") |}.

(** A server without [get_time] and whose registered services do not
    answer; everything else resolves. *)
Definition partial_peer : remote :=
  {| connect_to_server := connect_to_server reference_peer;
     server_echo := server_echo reference_peer;
     server_get_server_info := server_get_server_info reference_peer;
     server_hello := server_hello reference_peer;
     server_get_time := λ _, inl (Exception "get_time is not available");
     server_get_service := server_get_service reference_peer;
     service_hello := service_hello reference_peer;
     server_register_service := server_register_service reference_peer;
     service_compute_square := λ _ _, inl (Exception "Method call timed out") |}.

(** * Properties *)

(** ** Logging *)

Lemma emit_app l1 l2 w : emit (l1 ++ l2) w = emit l2 (emit l1 w).
Proof. revert w. induction l1 as [|ev l1 IH]; intros w; simpl; [done | apply IH]. Qed.

Lemma events_emit l w : events (emit l w) = events w ++ l.
Proof.
  revert w. induction l as [|ev l IH]; intros w; simpl.
  - by rewrite app_nil_r.
  - rewrite IH. simpl. by rewrite <- app_assoc.
Qed.

Lemma stderr_emit l w : stderr (emit l w) = stderr w.
Proof. revert w. induction l as [|ev l IH]; intros w; simpl; [done | by rewrite IH]. Qed.

Lemma files_emit l w : files (emit l w) = files w.
Proof. revert w. induction l as [|ev l IH]; intros w; simpl; [done | by rewrite IH]. Qed.

Lemma environ_emit l w : environ (emit l w) = environ w.
Proof. revert w. induction l as [|ev l IH]; intros w; simpl; [done | by rewrite IH]. Qed.

(** ** Rules for [runs] *)

Lemma runs_print line : runs (print line) (Normal tt) [Print line].
Proof. by intros w. Qed.

Lemma runs_return {A} v : runs (@return_ A v) (Return v) [].
Proof. by intros w. Qed.

Lemma runs_await {T} c (inj : T → payload) r :
  runs (await c inj r) (match r with inl e => Raise e | inr v => Normal v end)
       [Await c (answer inj r)].
Proof. intros w. by destruct r. Qed.

Lemma runs_seq_normal {A B} (m : Py A) (k : A → Py B) a c l1 l2 :
  runs m (Normal a) l1 → runs (k a) c l2 → runs (m ≫= k) c (l1 ++ l2).
Proof.
  intros Hm Hk w. unfold mbind, Py_bind, seq. by rewrite Hm, Hk, emit_app.
Qed.

Lemma runs_seq_raise {A B} (m : Py A) (k : A → Py B) e l :
  runs m (Raise e) l → runs (m ≫= k) (Raise e) l.
Proof. intros Hm w. unfold mbind, Py_bind, seq. by rewrite Hm. Qed.

Lemma runs_seq_return {A B} (m : Py A) (k : A → Py B) v l :
  runs m (Return v) l → runs (m ≫= k) (Return v) l.
Proof. intros Hm w. unfold mbind, Py_bind, seq. by rewrite Hm. Qed.

Lemma runs_try_normal {A} (body : Py A) handler a l :
  runs body (Normal a) l → runs (try_except body handler) (Normal a) l.
Proof. intros Hb w. unfold try_except. by rewrite Hb. Qed.

Lemma runs_try_return {A} (body : Py A) handler v l :
  runs body (Return v) l → runs (try_except body handler) (Return v) l.
Proof. intros Hb w. unfold try_except. by rewrite Hb. Qed.

Lemma runs_try_raise {A} (body : Py A) handler e c l1 l2 :
  runs body (Raise e) l1 → runs (handler e) c l2 →
  runs (try_except body handler) c (l1 ++ l2).
Proof. intros Hb Hh w. unfold try_except. by rewrite Hb, Hh, emit_app. Qed.

Lemma runs_eq {A} (m : Py A) c l l' : runs m c l → l = l' → runs m c l'.
Proof. by intros H <-. Qed.

(** ** The blocks of the script leave the logs read off above *)

Lemma echo_step_runs server : runs (echo_step server) (Normal tt) (echo_log server).
Proof.
  intros w. unfold echo_step, echo_log.
  by destruct (server_echo peer server _).
Qed.

Lemma server_info_step_runs server :
  runs (server_info_step server) (Normal tt) (server_info_log server).
Proof.
  intros w. unfold server_info_step, server_info_log.
  by destruct (server_get_server_info peer server).
Qed.

Lemma hello_step_runs server : runs (hello_step server) (Normal tt) (hello_log server).
Proof.
  intros w. unfold hello_step, hello_log, fallback_log.
  destruct (server_hello peer server _); [|destruct (server_get_time peer server)];
    try reflexivity;
    (destruct (server_get_service peer server _) as [|hello_service]; [reflexivity|];
     destruct (service_hello peer hello_service "Python Client") eqn:Hvia;
     unfold mbind, Py_bind, seq, try_except, await; simpl; rewrite Hvia; reflexivity).
Qed.

Lemma registration_step_runs server :
  runs (registration_step server) (Normal tt) (registration_log server).
Proof.
  intros w. unfold registration_step, registration_log.
  destruct (server_register_service peer server _) as [|client_service]; [reflexivity|].
  destruct (service_compute_square peer client_service 7) eqn:Hsq;
    unfold mbind, Py_bind, seq, try_except, await; simpl; rewrite Hsq; reflexivity.
Qed.

Create HintDb runs.

#[local] Hint Resolve runs_print runs_return echo_step_runs server_info_step_runs
  hello_step_runs registration_step_runs : runs.
#[local] Hint Resolve runs_seq_normal runs_seq_raise runs_seq_return
  runs_try_normal runs_try_return runs_try_raise : runs.

Lemma runs_await_resolved {T} c (inj : T → payload) v :
  runs (await c inj (inr v)) (Normal v) [Await c (inr (inj v))].
Proof. apply (runs_await c inj (inr v)). Qed.

Lemma runs_await_rejected {T} c (inj : T → payload) e :
  runs (await c inj (inl e)) (Raise e) [Await c (inl e)].
Proof. apply (runs_await c inj (inl e)). Qed.

#[local] Hint Resolve runs_await_resolved runs_await_rejected : runs.

(** ** The coroutine and the process *)

Lemma test_deno_server_connected server :
  connect_to_server peer connect_config = inr server →
  runs test_deno_server (Return true) (connected_log server).
Proof.
  intros Hconn. unfold test_deno_server. rewrite Hconn.
  eapply runs_eq; [eauto 30 with runs | by rewrite app_nil_r].
Qed.

Lemma test_deno_server_refused error :
  connect_to_server peer connect_config = inl error →
  runs test_deno_server (Return false) (refused_log error).
Proof.
  intros Hconn. unfold test_deno_server. rewrite Hconn.
  eapply runs_eq; [eauto 30 with runs | reflexivity].
Qed.

Lemma main_connected server w :
  connect_to_server peer connect_config = inr server →
  main w = (0, emit (connected_log server ++ [Print (LF +:+ "✅ Test passed!")]) w).
Proof.
  intros Hconn. unfold main, asyncio_run.
  rewrite (test_deno_server_connected server Hconn w). cbn [truthy snd print].
  by rewrite emit_app.
Qed.

Lemma main_refused error w :
  connect_to_server peer connect_config = inl error →
  main w = (1, emit (refused_log error ++ [Print (LF +:+ "❌ Test failed!")]) w).
Proof.
  intros Hconn. unfold main, asyncio_run.
  rewrite (test_deno_server_refused error Hconn w). cbn [truthy snd print].
  by rewrite emit_app.
Qed.

Lemma transcript_connected server fs vars :
  connect_to_server peer connect_config = inr server →
  transcript fs vars = connected_log server ++ [Print (LF +:+ "✅ Test passed!")].
Proof.
  intros Hconn. unfold transcript. rewrite (main_connected server _ Hconn).
  cbn [snd]. by rewrite events_emit.
Qed.

Lemma transcript_refused error fs vars :
  connect_to_server peer connect_config = inl error →
  transcript fs vars = refused_log error ++ [Print (LF +:+ "❌ Test failed!")].
Proof.
  intros Hconn. unfold transcript. rewrite (main_refused error _ Hconn).
  cbn [snd]. by rewrite events_emit.
Qed.

Lemma exit_status_connected server fs vars :
  connect_to_server peer connect_config = inr server → exit_status fs vars = 0.
Proof. intros Hconn. unfold exit_status. by rewrite (main_connected server _ Hconn). Qed.

Lemma exit_status_refused error fs vars :
  connect_to_server peer connect_config = inl error → exit_status fs vars = 1.
Proof. intros Hconn. unfold exit_status. by rewrite (main_refused error _ Hconn). Qed.

(** ** Which methods each block awaits *)

Lemma methods_app l1 l2 : methods (l1 ++ l2) = methods l1 ++ methods l2.
Proof. unfold methods, calls. by rewrite omap_app, fmap_app. Qed.

Lemma methods_greeting_log server : methods (greeting_log server) = [m_connect_to_server].
Proof. reflexivity. Qed.

Lemma methods_echo_log server : methods (echo_log server) = [m_echo].
Proof. unfold echo_log. by destruct (server_echo peer server _). Qed.

Lemma methods_server_info_log server :
  methods (server_info_log server) = [m_get_server_info].
Proof. unfold server_info_log. by destruct (server_get_server_info peer server). Qed.

Lemma methods_fallback_log server :
  methods (fallback_log server) ⊆ [m_get_service; m_hello].
Proof.
  unfold fallback_log.
  destruct (server_get_service peer server _) as [|hello_service];
    [|destruct (service_hello peer hello_service _)]; cbn; set_solver.
Qed.

Lemma methods_hello_log server :
  ∃ rest, methods (hello_log server) = m_hello :: rest ∧
          rest ⊆ [m_get_time; m_get_service; m_hello].
Proof.
  pose proof (methods_fallback_log server) as Hfb.
  unfold hello_log.
  destruct (server_hello peer server _); [|destruct (server_get_time peer server)];
    cbn; eexists; (split; [reflexivity|]); set_solver.
Qed.

Lemma methods_registration_log server :
  ∃ rest, methods (registration_log server) = m_register_service :: rest ∧
          rest ⊆ [m_compute_square].
Proof.
  unfold registration_log.
  destruct (server_register_service peer server _) as [|client_service];
    [|destruct (service_compute_square peer client_service _)];
    cbn; eexists; (split; [reflexivity|]); set_solver.
Qed.

Lemma methods_closing_log : methods closing_log = [].
Proof. reflexivity. Qed.

(** Whatever the optional steps answer, a connected run awaits the first
    call of every step, in the order of the script. *)
Lemma methods_connected_log server :
  [m_connect_to_server; m_echo; m_get_server_info; m_hello; m_register_service]
    `sublist_of` methods (connected_log server).
Proof.
  unfold connected_log. rewrite !methods_app.
  rewrite methods_greeting_log, methods_echo_log, methods_server_info_log.
  destruct (methods_hello_log server) as (rest1 & -> & _).
  destruct (methods_registration_log server) as (rest2 & -> & _).
  cbn. do 4 apply sublist_skip.
  apply sublist_inserts_l, sublist_skip, sublist_nil_l.
Qed.

(** ** What a run of the script does *)

(** C2.  When [connect_to_server] raises, the run consists of the
    opening line, the failed connection, the failure message with the
    text of the exception and the closing verdict; the coroutine returns
    [False], the process exits with status 1 and [connect_to_server] is
    the only remote call that was awaited. *)
Theorem unreachable_server_fails_fast error fs vars :
  connect_to_server peer connect_config = inl error →
  transcript fs vars =
    [Print "🔌 Connecting to Deno Hypha server...";
     Await (ConnectToServer connect_config) (inl error);
     Print ("❌ Failed to connect or execute: " +:+ message error);
     Print (LF +:+ "❌ Test failed!")] ∧
  fst (asyncio_run test_deno_server (boot fs vars)) = inr (Some false) ∧
  exit_status fs vars = 1 ∧
  methods (transcript fs vars) = [m_connect_to_server].
Proof.
  intros Hconn.
  rewrite (transcript_refused error fs vars Hconn).
  rewrite (exit_status_refused error fs vars Hconn).
  unfold asyncio_run. rewrite (test_deno_server_refused error Hconn (boot fs vars)).
  done.
Qed.

(** C4.  The function registered under [compute_square], called with 7,
    returns 49; and on a run where the registration resolves and the
    service relays the call to that function, 49 is what the script
    receives for [compute_square(7)] and prints. *)
Theorem registered_compute_square_of_7 :
  api_compute_square python_client_service 7 = 49 ∧
  (∀ server client_service fs vars,
     connect_to_server peer connect_config = inr server →
     server_register_service peer server python_client_service = inr client_service →
     service_compute_square peer client_service 7 =
       inr (VInt (api_compute_square python_client_service 7)) →
     Await (ComputeSquare client_service 7) (inr (PValue (VInt 49)))
       ∈ transcript fs vars ∧
     Print ("Square(7) = " +:+ py_str (VInt 49)) ∈ transcript fs vars).
Proof.
  split; [reflexivity|].
  intros server client_service fs vars Hconn Hreg Hsquare.
  rewrite (transcript_connected server fs vars Hconn).
  unfold connected_log, registration_log. rewrite Hreg, Hsquare.
  split; set_solver.
Qed.

(** C10, for integers.  For every integer [n], zero and negative ones
    included and whatever its size, the [compute_square] handler
    returns the integer [n * n], which is exactly the square of [n];
    that is also what the function stored in the registered dictionary
    computes.  On a float the handler returns the binary64 product.
    The dictionary built by the [get_python_info] handler maps
    ["client"] to ["Python"]. *)
Theorem handlers_square_integers_exactly (n : Z) (f : float) :
  compute_square_number (Int n) = Int (n * n) ∧
  squares_exactly (Int n) ∧
  compute_square_number (Int 0) = Int 0 ∧
  compute_square_number (Int (- n)) = Int (n * n) ∧
  api_compute_square python_client_service n = n * n ∧
  compute_square_number (Float f) = Float (f * f)%float ∧
  api_get_python_info python_client_service tt !! "client" = Some "Python".
Proof.
  split_and!.
  - reflexivity.
  - exists (inject_Z n), (inject_Z (n * n)). split_and!; [done..|].
    rewrite inject_Z_mult. apply Qeq_refl.
  - reflexivity.
  - cbn. unfold compute_square. f_equal. lia.
  - reflexivity.
  - reflexivity.
  - cbn [api_get_python_info python_client_service]. unfold get_python_info.
    rewrite lookup_insert_ne by done. by rewrite lookup_insert_eq.
Qed.

(** C5.  On a connected run against a server whose echo gives back what
    it got, the script awaits echo once, with the literal
    ["Hello from Python client!"], and what it receives, and prints, is
    that same string. *)
Theorem echo_gives_back_the_literal server fs vars :
  connect_to_server peer connect_config = inr server →
  (∀ s, server_echo peer server s = inr (VStr s)) →
  ∃ pre post,
    transcript fs vars =
      pre ++
      [Await (Echo server "Hello from Python client!")
             (inr (PValue (VStr "Hello from Python client!")));
       Print "Echo response: Hello from Python client!"] ++
      post ∧
    (m_echo ∉ methods pre) ∧ (m_echo ∉ methods post).
Proof.
  intros Hconn Hecho.
  exists (greeting_log server ++ [Print (LF +:+ "🧪 Testing echo service...")]),
    (server_info_log server ++ hello_log server ++ registration_log server ++
     closing_log ++ [Print (LF +:+ "✅ Test passed!")]).
  split; [|split].
  - rewrite (transcript_connected server fs vars Hconn).
    unfold connected_log, echo_log. rewrite Hecho.
    by rewrite <- !app_assoc.
  - cbn. set_solver.
  - rewrite !methods_app, methods_server_info_log, methods_closing_log.
    destruct (methods_hello_log server) as (rest1 & -> & Hrest1).
    destruct (methods_registration_log server) as (rest2 & -> & Hrest2).
    cbn. set_solver.
Qed.

(** C7.  On a connected run: when [register_service] raises, the
    exception is reported and [compute_square] is never awaited; when it
    resolves, [compute_square] is awaited on the service it resolved to,
    with argument 7, right after the registration was reported, and
    neither [register_service] nor [compute_square] is awaited before,
    nor [compute_square] after. *)
Theorem compute_square_follows_registration server fs vars :
  connect_to_server peer connect_config = inr server →
  (∀ e, server_register_service peer server python_client_service = inl e →
     (m_compute_square ∉ methods (transcript fs vars)) ∧
     Print ("Service registration error: " +:+ message e) ∈ transcript fs vars) ∧
  (∀ client_service,
     server_register_service peer server python_client_service = inr client_service →
     ∃ pre post,
       transcript fs vars =
         pre ++
         [Await (RegisterService server python_client_service)
                (inr (PService client_service));
          Print ("✅ Service registered with ID: " +:+ py_str (id client_service));
          Await (ComputeSquare client_service 7)
                (answer PValue (service_compute_square peer client_service 7))] ++
         post ∧
       (m_register_service ∉ methods pre) ∧
       (m_compute_square ∉ methods pre) ∧
       (m_compute_square ∉ methods post)).
Proof.
  intros Hconn. rewrite (transcript_connected server fs vars Hconn).
  destruct (methods_hello_log server) as (rest1 & Hhello & Hrest1).
  split.
  - intros e Hreg. unfold connected_log, registration_log. rewrite Hreg. split.
    + rewrite !methods_app, methods_greeting_log, methods_echo_log,
        methods_server_info_log, Hhello.
      cbn. set_solver.
    + set_solver.
  - intros client_service Hreg.
    exists (greeting_log server ++ echo_log server ++ server_info_log server ++
            hello_log server ++
            [Print (LF +:+ "📝 Registering Python client service...")]),
      (match service_compute_square peer client_service 7 with
       | inr square_result => Print ("Square(7) = " +:+ py_str square_result)
       | inl e => Print ("Service registration error: " +:+ message e)
       end :: closing_log ++ [Print (LF +:+ "✅ Test passed!")]).
    split; [|split; [|split]].
    + unfold connected_log, registration_log. rewrite Hreg.
      by rewrite <- !app_assoc.
    + rewrite !methods_app, methods_greeting_log, methods_echo_log,
        methods_server_info_log, Hhello.
      cbn. set_solver.
    + rewrite !methods_app, methods_greeting_log, methods_echo_log,
        methods_server_info_log, Hhello.
      cbn. set_solver.
    + destruct (service_compute_square peer client_service 7); cbn; set_solver.
Qed.

(** C3.  On a connected run where the direct [hello] raises, or where
    it resolves and the [get_time] that follows raises, the script
    reports that exception and then awaits [get_service("hello-world")],
    for the first time in the run; when that resolves it awaits [hello]
    on the service it got.  An exception raised by either call of the
    fallback is reported as well, and in every case the registration
    step and the closing lines follow and the process exits with
    status 0. *)
Theorem hello_failure_takes_the_fallback server e fs vars :
  connect_to_server peer connect_config = inr server →
  (server_hello peer server "Python Client" = inl e ∨
   (∃ hello_response, server_hello peer server "Python Client" = inr hello_response) ∧
   server_get_time peer server = inl e) →
  ∃ pre failed post,
    transcript fs vars =
      pre ++
      [Await failed (inl e);
       Print ("Hello service error: " +:+ message e);
       Await (GetService server "hello-world")
             (answer PService (server_get_service peer server "hello-world"))] ++
      post ∧
    (failed = Hello server "Python Client" ∨ failed = GetTime server) ∧
    (m_get_service ∉ methods pre) ∧
    (∀ hello_service,
       server_get_service peer server "hello-world" = inr hello_service →
       ∃ post',
         post =
           Await (ServiceHello hello_service "Python Client")
                 (answer PValue (service_hello peer hello_service "Python Client")) ::
           post') ∧
    (∀ e2,
       (server_get_service peer server "hello-world" = inl e2 ∨
        ∃ hello_service,
          server_get_service peer server "hello-world" = inr hello_service ∧
          service_hello peer hello_service "Python Client" = inl e2) →
       Print ("Hello service (via get_service) error: " +:+ message e2) ∈ post) ∧
    Await (RegisterService server python_client_service)
          (answer PService (server_register_service peer server python_client_service))
      ∈ post ∧
    Print (LF +:+ "🎉 All tests completed successfully!") ∈ post ∧
    exit_status fs vars = 0.
Proof.
  intros Hconn Hdirect.
  rewrite (transcript_connected server fs vars Hconn),
    (exit_status_connected server fs vars Hconn).
  set (post := tail (fallback_log server) ++ registration_log server ++
               closing_log ++ [Print (LF +:+ "✅ Test passed!")]).
  assert (Hpost :
    (∀ hello_service,
       server_get_service peer server "hello-world" = inr hello_service →
       ∃ post',
         post =
           Await (ServiceHello hello_service "Python Client")
                 (answer PValue (service_hello peer hello_service "Python Client")) ::
           post') ∧
    (∀ e2,
       (server_get_service peer server "hello-world" = inl e2 ∨
        ∃ hello_service,
          server_get_service peer server "hello-world" = inr hello_service ∧
          service_hello peer hello_service "Python Client" = inl e2) →
       Print ("Hello service (via get_service) error: " +:+ message e2) ∈ post) ∧
    Await (RegisterService server python_client_service)
          (answer PService (server_register_service peer server python_client_service))
      ∈ post ∧
    Print (LF +:+ "🎉 All tests completed successfully!") ∈ post).
  { subst post. unfold fallback_log, registration_log, closing_log.
    repeat split.
    - intros hello_service ->. cbn. eauto.
    - intros e2 [-> | (hello_service & -> & ->)]; cbn; set_solver.
    - set_solver.
    - set_solver. }
  destruct Hpost as (Hvia & Hvia_error & Hregister & Hclosing).
  destruct Hdirect as [Hhello | [[hello_response Hhello] Htime]].
  - exists (greeting_log server ++ echo_log server ++ server_info_log server ++
            [Print (LF +:+ "🌍 Testing hello service...")]),
      (Hello server "Python Client"), post.
    split; [|split; [by left|split; [|done]]].
    + unfold connected_log, hello_log. rewrite Hhello. subst post.
      unfold fallback_log. by rewrite <- !app_assoc.
    + rewrite !methods_app, methods_greeting_log, methods_echo_log,
        methods_server_info_log.
      cbn. set_solver.
  - exists (greeting_log server ++ echo_log server ++ server_info_log server ++
            [Print (LF +:+ "🌍 Testing hello service...");
             Await (Hello server "Python Client") (inr (PValue hello_response));
             Print ("Hello response: " +:+ py_str hello_response)]),
      (GetTime server), post.
    split; [|split; [by right|split; [|done]]].
    + unfold connected_log, hello_log. rewrite Hhello, Htime. subst post.
      unfold fallback_log. by rewrite <- !app_assoc.
    + rewrite !methods_app, methods_greeting_log, methods_echo_log,
        methods_server_info_log.
      cbn. set_solver.
Qed.

(** C6.  On a connected run, an exception raised by the awaited call of
    any optional step (echo, get_server_info, hello and get_time with
    their fallback, register_service and compute_square) is caught and
    printed with its message; whatever the calls answer, the first call
    of every step is awaited, in the order of the script, the closing
    lines are printed and the process exits with status 0. *)
Theorem optional_steps_are_guarded server fs vars :
  connect_to_server peer connect_config = inr server →
  (∀ e, server_echo peer server "Hello from Python client!" = inl e →
     Print ("Echo service error: " +:+ message e) ∈ transcript fs vars) ∧
  (∀ e, server_get_server_info peer server = inl e →
     Print ("Server info error: " +:+ message e) ∈ transcript fs vars) ∧
  (∀ e, server_hello peer server "Python Client" = inl e →
     Print ("Hello service error: " +:+ message e) ∈ transcript fs vars) ∧
  (∀ hello_response e,
     server_hello peer server "Python Client" = inr hello_response →
     server_get_time peer server = inl e →
     Print ("Hello service error: " +:+ message e) ∈ transcript fs vars) ∧
  (∀ e2,
     ((∃ e, server_hello peer server "Python Client" = inl e) ∨
      (∃ e, server_get_time peer server = inl e)) →
     (server_get_service peer server "hello-world" = inl e2 ∨
      ∃ hello_service,
        server_get_service peer server "hello-world" = inr hello_service ∧
        service_hello peer hello_service "Python Client" = inl e2) →
     Print ("Hello service (via get_service) error: " +:+ message e2)
       ∈ transcript fs vars) ∧
  (∀ e, server_register_service peer server python_client_service = inl e →
     Print ("Service registration error: " +:+ message e) ∈ transcript fs vars) ∧
  (∀ client_service e,
     server_register_service peer server python_client_service = inr client_service →
     service_compute_square peer client_service 7 = inl e →
     Print ("Service registration error: " +:+ message e) ∈ transcript fs vars) ∧
  [m_connect_to_server; m_echo; m_get_server_info; m_hello; m_register_service]
    `sublist_of` methods (transcript fs vars) ∧
  sublist closing_log (transcript fs vars) ∧
  exit_status fs vars = 0.
Proof.
  intros Hconn.
  rewrite (transcript_connected server fs vars Hconn),
    (exit_status_connected server fs vars Hconn).
  split_and!; try done.
  - intros e He. unfold connected_log, echo_log. rewrite He. set_solver.
  - intros e He. unfold connected_log, server_info_log. rewrite He. set_solver.
  - intros e He. unfold connected_log, hello_log. rewrite He. set_solver.
  - intros v e Hv He. unfold connected_log, hello_log. rewrite Hv, He. set_solver.
  - intros e2 Hdirect Hvia.
    assert (Print ("Hello service (via get_service) error: " +:+ message e2)
              ∈ fallback_log server) as Hin.
    { unfold fallback_log.
      destruct Hvia as [-> | (hello_service & -> & ->)]; set_solver. }
    unfold connected_log, hello_log.
    destruct (server_hello peer server "Python Client") as [e|v];
      [|destruct Hdirect as [[e [=]] | [e ->]]]; set_solver.
  - intros e He. unfold connected_log, registration_log. rewrite He. set_solver.
  - intros svc e Hsvc He. unfold connected_log, registration_log.
    rewrite Hsvc, He. set_solver.
  - rewrite methods_app. apply sublist_inserts_r, methods_connected_log.
  - unfold connected_log. rewrite !app_assoc.
    apply sublist_inserts_r, sublist_inserts_l. done.
Qed.

(** ** Further behaviour of the script *)

(** Settles a count of awaited methods over a log whose methods are known. *)
Ltac count_awaited :=
  unfold times_awaited; cbn [methods calls omap fmap list_omap list_fmap method_of app];
  vm_compute; lia.

Lemma times_awaited_app m l1 l2 :
  times_awaited m (l1 ++ l2) = (times_awaited m l1 + times_awaited m l2)%nat.
Proof. unfold times_awaited. by rewrite methods_app, filter_app, length_app. Qed.

(** The methods the hello step can await, by how its calls fare. *)
Lemma methods_hello_log_cases server :
  methods (hello_log server) ∈
    [[m_hello; m_get_time];
     [m_hello; m_get_service];
     [m_hello; m_get_service; m_hello];
     [m_hello; m_get_time; m_get_service];
     [m_hello; m_get_time; m_get_service; m_hello]].
Proof.
  unfold hello_log, fallback_log.
  destruct (server_hello peer server _); [|destruct (server_get_time peer server)];
    try (cbn; set_solver);
    (destruct (server_get_service peer server _) as [|hello_service];
      [|destruct (service_hello peer hello_service _)]; cbn; set_solver).
Qed.

Lemma methods_registration_log_cases server :
  methods (registration_log server) ∈
    [[m_register_service]; [m_register_service; m_compute_square]].
Proof.
  unfold registration_log.
  destruct (server_register_service peer server _) as [|client_service];
    [|destruct (service_compute_square peer client_service _)]; cbn; set_solver.
Qed.

Lemma methods_connected_transcript server fs vars :
  connect_to_server peer connect_config = inr server →
  ∃ hello_part registration_part,
    methods (transcript fs vars) =
      [m_connect_to_server; m_echo; m_get_server_info] ++
      hello_part ++ registration_part ∧
    hello_part = methods (hello_log server) ∧
    registration_part = methods (registration_log server).
Proof.
  intros Hconn. rewrite (transcript_connected server fs vars Hconn).
  eexists _, _. split; [|done].
  unfold connected_log.
  rewrite !methods_app, methods_greeting_log, methods_echo_log,
    methods_server_info_log, methods_closing_log.
  cbn. by rewrite !app_nil_r.
Qed.

(** X1.  Every run opens with the connecting line followed by the
    awaited [connect_to_server], and ends with the verdict line, which
    reads "Test passed!" exactly when the exit status is 0. *)
Theorem verdict_line_matches_status fs vars :
  transcript fs vars !! 0%nat = Some (Print "🔌 Connecting to Deno Hypha server...") ∧
  transcript fs vars !! 1%nat =
    Some (Await (ConnectToServer connect_config)
                (answer PServer (connect_to_server peer connect_config))) ∧
  last (transcript fs vars) =
    Some (Print (LF +:+ (if Z.eqb (exit_status fs vars) 0
                         then "✅ Test passed!" else "❌ Test failed!"))).
Proof.
  destruct (connect_to_server peer connect_config) as [error|server] eqn:Hconn.
  - rewrite (transcript_refused error fs vars Hconn),
      (exit_status_refused error fs vars Hconn).
    done.
  - rewrite (transcript_connected server fs vars Hconn),
      (exit_status_connected server fs vars Hconn).
    split; [done|]. split; [done|]. by rewrite last_snoc.
Qed.

(** X2.  The script never retries: in every run [connect_to_server] is
    awaited exactly once, [echo], [get_server_info], [get_time],
    [get_service], [register_service] and [compute_square] at most once
    each, and [hello] at most twice (the direct call and the one of the
    fallback). *)
Theorem no_call_is_retried fs vars :
  times_awaited m_connect_to_server (transcript fs vars) = 1%nat ∧
  (times_awaited m_echo (transcript fs vars) ≤ 1)%nat ∧
  (times_awaited m_get_server_info (transcript fs vars) ≤ 1)%nat ∧
  (times_awaited m_get_time (transcript fs vars) ≤ 1)%nat ∧
  (times_awaited m_get_service (transcript fs vars) ≤ 1)%nat ∧
  (times_awaited m_register_service (transcript fs vars) ≤ 1)%nat ∧
  (times_awaited m_compute_square (transcript fs vars) ≤ 1)%nat ∧
  (times_awaited m_hello (transcript fs vars) ≤ 2)%nat.
Proof.
  destruct (connect_to_server peer connect_config) as [error|server] eqn:Hconn.
  - rewrite (transcript_refused error fs vars Hconn). split_and!; count_awaited.
  - destruct (methods_connected_transcript server fs vars Hconn)
      as (hs & rs & Hmethods & -> & ->).
    unfold times_awaited. rewrite Hmethods.
    pose proof (methods_hello_log_cases server) as Hh.
    pose proof (methods_registration_log_cases server) as Hr.
    repeat (apply elem_of_cons in Hh as [-> | Hh]);
      try (by apply elem_of_nil in Hh);
      repeat (apply elem_of_cons in Hr as [-> | Hr]);
      try (by apply elem_of_nil in Hr);
      split_and!; count_awaited.
Qed.

(** X3.  The fallback is taken only on failure: on a connected run where
    the direct [hello] and [get_time] both resolve, both answers are
    printed, [get_service] is never awaited and [hello] is awaited
    exactly once. *)
Theorem no_fallback_when_hello_and_time_resolve
    server hello_response time_response fs vars :
  connect_to_server peer connect_config = inr server →
  server_hello peer server "Python Client" = inr hello_response →
  server_get_time peer server = inr time_response →
  ∃ pre post,
    transcript fs vars =
      pre ++
      [Print (LF +:+ "🌍 Testing hello service...");
       Await (Hello server "Python Client") (inr (PValue hello_response));
       Print ("Hello response: " +:+ py_str hello_response);
       Await (GetTime server) (inr (PValue time_response));
       Print ("Server time: " +:+ py_str time_response);
       Print (LF +:+ "📝 Registering Python client service...")] ++
      post ∧
    times_awaited m_get_service (transcript fs vars) = 0%nat ∧
    times_awaited m_hello (transcript fs vars) = 1%nat.
Proof.
  intros Hconn Hhello Htime.
  assert (Hlog : hello_log server =
    [Print (LF +:+ "🌍 Testing hello service...");
     Await (Hello server "Python Client") (inr (PValue hello_response));
     Print ("Hello response: " +:+ py_str hello_response);
     Await (GetTime server) (inr (PValue time_response));
     Print ("Server time: " +:+ py_str time_response)]).
  { unfold hello_log. by rewrite Hhello, Htime. }
  exists (greeting_log server ++ echo_log server ++ server_info_log server),
    (tail (registration_log server) ++ closing_log ++
     [Print (LF +:+ "✅ Test passed!")]).
  destruct (methods_connected_transcript server fs vars Hconn)
    as (hs & rs & Hmethods & -> & ->).
  pose proof (methods_registration_log_cases server) as Hr.
  split_and!.
  - rewrite (transcript_connected server fs vars Hconn).
    unfold connected_log. rewrite Hlog. unfold registration_log.
    by rewrite <- !app_assoc.
  - unfold times_awaited. rewrite Hmethods, Hlog.
    repeat (apply elem_of_cons in Hr as [-> | Hr]);
      try (by apply elem_of_nil in Hr); count_awaited.
  - unfold times_awaited. rewrite Hmethods, Hlog.
    repeat (apply elem_of_cons in Hr as [-> | Hr]);
      try (by apply elem_of_nil in Hr); count_awaited.
Qed.

(** X4.  [get_time] sits behind [hello] in the same [try]: on a connected
    run where the direct [hello] raises, [get_time] is never awaited. *)
Theorem get_time_skipped_when_hello_raises server e fs vars :
  connect_to_server peer connect_config = inr server →
  server_hello peer server "Python Client" = inl e →
  times_awaited m_get_time (transcript fs vars) = 0%nat.
Proof.
  intros Hconn Hhello.
  destruct (methods_connected_transcript server fs vars Hconn)
    as (hs & rs & Hmethods & -> & ->).
  unfold times_awaited. rewrite Hmethods.
  pose proof (methods_registration_log_cases server) as Hr.
  unfold hello_log, fallback_log. rewrite Hhello.
  repeat (apply elem_of_cons in Hr as [-> | Hr]);
    try (by apply elem_of_nil in Hr);
    (destruct (server_get_service peer server _) as [|hello_service];
      [|destruct (service_hello peer hello_service _)]; count_awaited).
Qed.

(** X5.  The coroutine never lets an exception escape and never falls
    off its end: from every world it returns a boolean, [True] exactly
    when [connect_to_server] resolved. *)
Theorem test_deno_server_returns_a_boolean w :
  ∃ b, fst (asyncio_run test_deno_server w) = inr (Some b) ∧
       (b = true ↔ ∃ server, connect_to_server peer connect_config = inr server).
Proof.
  unfold asyncio_run.
  destruct (connect_to_server peer connect_config) as [error|server] eqn:Hconn.
  - rewrite (test_deno_server_refused error Hconn w). exists false.
    split; [done|]. split; [done | intros [? [=]]].
  - rewrite (test_deno_server_connected server Hconn w). exists true.
    split; [done|]. split; [by exists server | done].
Qed.

(** X6.  On a connected run the answer of every call that resolves is
    printed, formatted by [str]: the echo, the server info, the direct
    hello and, when that resolved, the time; the hello of the fallback
    when the direct path failed; the id of the registered service and,
    when the registration resolved, the square. *)
Theorem resolved_answers_are_printed server fs vars :
  connect_to_server peer connect_config = inr server →
  (∀ v, server_echo peer server "Hello from Python client!" = inr v →
     Print ("Echo response: " +:+ py_str v) ∈ transcript fs vars) ∧
  (∀ v, server_get_server_info peer server = inr v →
     Print ("Server info: " +:+ py_str v) ∈ transcript fs vars) ∧
  (∀ v, server_hello peer server "Python Client" = inr v →
     Print ("Hello response: " +:+ py_str v) ∈ transcript fs vars) ∧
  (∀ v t,
     server_hello peer server "Python Client" = inr v →
     server_get_time peer server = inr t →
     Print ("Server time: " +:+ py_str t) ∈ transcript fs vars) ∧
  (∀ hello_service v,
     ((∃ e, server_hello peer server "Python Client" = inl e) ∨
      (∃ e, server_get_time peer server = inl e)) →
     server_get_service peer server "hello-world" = inr hello_service →
     service_hello peer hello_service "Python Client" = inr v →
     Print ("Hello response (via service): " +:+ py_str v) ∈ transcript fs vars) ∧
  (∀ client_service,
     server_register_service peer server python_client_service = inr client_service →
     Print ("✅ Service registered with ID: " +:+ py_str (id client_service))
       ∈ transcript fs vars) ∧
  (∀ client_service v,
     server_register_service peer server python_client_service = inr client_service →
     service_compute_square peer client_service 7 = inr v →
     Print ("Square(7) = " +:+ py_str v) ∈ transcript fs vars).
Proof.
  intros Hconn. rewrite (transcript_connected server fs vars Hconn).
  split_and!.
  - intros v Hv. unfold connected_log, echo_log. rewrite Hv. set_solver.
  - intros v Hv. unfold connected_log, server_info_log. rewrite Hv. set_solver.
  - intros v Hv. unfold connected_log, hello_log. rewrite Hv. set_solver.
  - intros v t Hv Ht. unfold connected_log, hello_log. rewrite Hv, Ht. set_solver.
  - intros hello_service v Hdirect Hservice Hvia.
    assert (Print ("Hello response (via service): " +:+ py_str v)
              ∈ fallback_log server) as Hin.
    { unfold fallback_log. rewrite Hservice, Hvia. set_solver. }
    unfold connected_log, hello_log.
    destruct (server_hello peer server "Python Client") as [e|v'];
      [|destruct Hdirect as [[e [=]] | [e ->]]]; set_solver.
  - intros svc Hsvc. unfold connected_log, registration_log. rewrite Hsvc.
    set_solver.
  - intros svc v Hsvc Hv. unfold connected_log, registration_log.
    rewrite Hsvc, Hv. set_solver.
Qed.

(** X7.  When the direct [hello] resolves but [get_time] raises and the
    fallback resolves, [hello] is awaited twice and two hello answers
    are printed, the direct one before the error line and the one of
    the service after it; no server time is printed in between. *)
Theorem hello_awaited_twice_after_get_time_fails
    server hello_response e hello_service via_response fs vars :
  connect_to_server peer connect_config = inr server →
  server_hello peer server "Python Client" = inr hello_response →
  server_get_time peer server = inl e →
  server_get_service peer server "hello-world" = inr hello_service →
  service_hello peer hello_service "Python Client" = inr via_response →
  ∃ pre post,
    transcript fs vars =
      pre ++
      [Await (Hello server "Python Client") (inr (PValue hello_response));
       Print ("Hello response: " +:+ py_str hello_response);
       Await (GetTime server) (inl e);
       Print ("Hello service error: " +:+ message e);
       Await (GetService server "hello-world") (inr (PService hello_service));
       Await (ServiceHello hello_service "Python Client") (inr (PValue via_response));
       Print ("Hello response (via service): " +:+ py_str via_response);
       Print (LF +:+ "📝 Registering Python client service...")] ++
      post ∧
    times_awaited m_hello (transcript fs vars) = 2%nat.
Proof.
  intros Hconn Hhello Htime Hservice Hvia.
  assert (Hlog : hello_log server =
    [Print (LF +:+ "🌍 Testing hello service...");
     Await (Hello server "Python Client") (inr (PValue hello_response));
     Print ("Hello response: " +:+ py_str hello_response);
     Await (GetTime server) (inl e);
     Print ("Hello service error: " +:+ message e);
     Await (GetService server "hello-world") (inr (PService hello_service));
     Await (ServiceHello hello_service "Python Client") (inr (PValue via_response));
     Print ("Hello response (via service): " +:+ py_str via_response)]).
  { unfold hello_log, fallback_log. by rewrite Hhello, Htime, Hservice, Hvia. }
  exists (greeting_log server ++ echo_log server ++ server_info_log server ++
          [Print (LF +:+ "🌍 Testing hello service...")]),
    (tail (registration_log server) ++ closing_log ++
     [Print (LF +:+ "✅ Test passed!")]).
  split.
  - rewrite (transcript_connected server fs vars Hconn).
    unfold connected_log. rewrite Hlog. unfold registration_log.
    by rewrite <- !app_assoc.
  - destruct (methods_connected_transcript server fs vars Hconn)
      as (hs & rs & Hmethods & -> & ->).
    pose proof (methods_registration_log_cases server) as Hr.
    unfold times_awaited. rewrite Hmethods, Hlog.
    repeat (apply elem_of_cons in Hr as [-> | Hr]);
      try (by apply elem_of_nil in Hr); count_awaited.
Qed.

(** X8.  An exception of [compute_square] is reported under the
    registration heading: when [register_service] resolves and
    [compute_square(7)] raises, the line announcing the registered
    service is followed by the failed call and then by a
    "Service registration error" line with the message of that
    exception, after which the closing lines follow. *)
Theorem compute_square_failure_reported_as_registration_error
    server client_service e fs vars :
  connect_to_server peer connect_config = inr server →
  server_register_service peer server python_client_service = inr client_service →
  service_compute_square peer client_service 7 = inl e →
  ∃ pre,
    transcript fs vars =
      pre ++
      [Await (RegisterService server python_client_service)
             (inr (PService client_service));
       Print ("✅ Service registered with ID: " +:+ py_str (id client_service));
       Await (ComputeSquare client_service 7) (inl e);
       Print ("Service registration error: " +:+ message e);
       Print (LF +:+ "🎉 All tests completed successfully!");
       Print "Connection test passed - Deno WebSocket server is working! 🦕";
       Print (LF +:+ "✅ Test passed!")].
Proof.
  intros Hconn Hreg Hsquare.
  exists (greeting_log server ++ echo_log server ++ server_info_log server ++
          hello_log server ++
          [Print (LF +:+ "📝 Registering Python client service...")]).
  rewrite (transcript_connected server fs vars Hconn).
  unfold connected_log, registration_log. rewrite Hreg, Hsquare.
  by rewrite <- !app_assoc.
Qed.

(** X9.  When every call resolves, the run is exactly this sequence of
    17 printed lines and 7 awaited calls: no error line, no fallback,
    and each answer printed right after the call that produced it. *)
Theorem transcript_when_every_call_resolves
    server echo_response server_info hello_response time_response
    client_service square_result fs vars :
  connect_to_server peer connect_config = inr server →
  server_echo peer server "Hello from Python client!" = inr echo_response →
  server_get_server_info peer server = inr server_info →
  server_hello peer server "Python Client" = inr hello_response →
  server_get_time peer server = inr time_response →
  server_register_service peer server python_client_service = inr client_service →
  service_compute_square peer client_service 7 = inr square_result →
  transcript fs vars =
    [Print "🔌 Connecting to Deno Hypha server...";
     Await (ConnectToServer connect_config) (inr (PServer server));
     Print "✅ Connected to Hypha server successfully!";
     Print ("📍 Connected to workspace: " +:+ py_str (workspace (config server)));
     Print ("🆔 Client ID: " +:+ py_str (hypha_rpc.client_id (config server)));
     Print (LF +:+ "🧪 Testing echo service...");
     Await (Echo server "Hello from Python client!") (inr (PValue echo_response));
     Print ("Echo response: " +:+ py_str echo_response);
     Print (LF +:+ "📊 Getting server info...");
     Await (GetServerInfo server) (inr (PValue server_info));
     Print ("Server info: " +:+ py_str server_info);
     Print (LF +:+ "🌍 Testing hello service...");
     Await (Hello server "Python Client") (inr (PValue hello_response));
     Print ("Hello response: " +:+ py_str hello_response);
     Await (GetTime server) (inr (PValue time_response));
     Print ("Server time: " +:+ py_str time_response);
     Print (LF +:+ "📝 Registering Python client service...");
     Await (RegisterService server python_client_service)
           (inr (PService client_service));
     Print ("✅ Service registered with ID: " +:+ py_str (id client_service));
     Await (ComputeSquare client_service 7) (inr (PValue square_result));
     Print ("Square(7) = " +:+ py_str square_result);
     Print (LF +:+ "🎉 All tests completed successfully!");
     Print "Connection test passed - Deno WebSocket server is working! 🦕";
     Print (LF +:+ "✅ Test passed!")] ∧
  exit_status fs vars = 0.
Proof.
  intros Hconn Hecho Hinfo Hhello Htime Hreg Hsquare.
  rewrite (transcript_connected server fs vars Hconn),
    (exit_status_connected server fs vars Hconn).
  unfold connected_log, echo_log, server_info_log, hello_log, registration_log.
  by rewrite Hecho, Hinfo, Hhello, Htime, Hreg, Hsquare.
Qed.

(** No line of a connected run is one of the two failure lines. *)
Ltac not_a_failure_line :=
  cbn; repeat (apply List.Forall_cons; [by intros msg; split; intros [=]|]);
  apply List.Forall_nil.

Lemma connected_log_has_no_failure_line server :
  Forall (λ ev, ∀ msg,
            ev ≠ Print ("❌ Failed to connect or execute: " +:+ msg) ∧
            ev ≠ Print (LF +:+ "❌ Test failed!"))
         (connected_log server ++ [Print (LF +:+ "✅ Test passed!")]).
Proof.
  unfold connected_log. rewrite !Forall_app. split_and!.
  - unfold greeting_log. not_a_failure_line.
  - unfold echo_log. destruct (server_echo peer server _); not_a_failure_line.
  - unfold server_info_log.
    destruct (server_get_server_info peer server); not_a_failure_line.
  - unfold hello_log, fallback_log.
    destruct (server_hello peer server _); [|destruct (server_get_time peer server)];
      try not_a_failure_line;
      (destruct (server_get_service peer server _) as [|hello_service];
        [|destruct (service_hello peer hello_service _)]; not_a_failure_line).
  - unfold registration_log.
    destruct (server_register_service peer server _) as [|client_service];
      [|destruct (service_compute_square peer client_service _)];
      not_a_failure_line.
  - unfold closing_log. not_a_failure_line.
  - not_a_failure_line.
Qed.

(** X10.  The failure lines are printed only when the connection failed:
    a run prints "Failed to connect or execute" only with the message of
    the exception that [connect_to_server] raised, it prints
    "Test failed!" exactly when [connect_to_server] raised, and
    "All tests completed successfully!" exactly when it resolved,
    however the optional steps fared. *)
Theorem failure_lines_only_when_connection_fails fs vars :
  (∀ msg,
     Print ("❌ Failed to connect or execute: " +:+ msg) ∈ transcript fs vars →
     ∃ error, connect_to_server peer connect_config = inl error ∧
              msg = message error) ∧
  (Print (LF +:+ "❌ Test failed!") ∈ transcript fs vars ↔
     ∃ error, connect_to_server peer connect_config = inl error) ∧
  (Print (LF +:+ "🎉 All tests completed successfully!") ∈ transcript fs vars ↔
     ∃ server, connect_to_server peer connect_config = inr server).
Proof.
  destruct (connect_to_server peer connect_config) as [error|server] eqn:Hconn.
  - rewrite (transcript_refused error fs vars Hconn). unfold refused_log.
    split_and!.
    + intros msg Hin. exists error. split; [done|].
      cbn in Hin. rewrite !elem_of_cons in Hin.
      destruct Hin as [[=] | [[=] | [Hin | [[=] | Hin]]]];
        [|by apply elem_of_nil in Hin].
      injection Hin as Hin. done.
    + split; [by exists error | intros _; set_solver].
    + split; [|intros [? [=]]].
      cbn. rewrite !elem_of_cons.
      intros [[=] | [[=] | [[=] | [[=] | Hin]]]]. by apply elem_of_nil in Hin.
  - rewrite (transcript_connected server fs vars Hconn).
    pose proof (connected_log_has_no_failure_line server) as Hnone.
    rewrite Forall_forall in Hnone.
    split_and!.
    + intros msg Hin. by destruct (Hnone _ Hin msg) as [Hne _].
    + split; [|intros [? [=]]].
      intros Hin. by destruct (Hnone _ Hin "") as [_ Hne].
    + split; [by exists server|]. intros _. unfold connected_log, closing_log.
      set_solver.
Qed.

(** X11.  The square is never negative, it is zero only for zero, it is
    at least the magnitude of its argument, and squaring commutes with
    multiplication. *)
Theorem compute_square_sign_and_product (n m : Z) :
  (0 ≤ compute_square n)%Z ∧
  (compute_square n = 0 ↔ n = 0) ∧
  (Z.abs n ≤ compute_square n)%Z ∧
  compute_square (n * m) = compute_square n * compute_square m.
Proof.
  unfold compute_square. split_and!; nia.
Qed.

End script.

(** C1.  The process exits with status 0 exactly when the awaited
    [connect_to_server] resolved, and with status 1 exactly when it
    raised.  This holds for every [peer], that is for every combination
    of answers to echo, get_server_info, hello, get_time, get_service,
    register_service and compute_square; so two servers that differ only
    in how the optional steps fare give the same status. *)
Theorem exit_status_zero_iff_connected
    sys_version sys_platform py_repr object_id peer fs vars :
  let status := exit_status sys_version sys_platform py_repr object_id in
  let cfg := connect_config py_repr object_id in
  (status peer fs vars = 0 ↔ ∃ server, connect_to_server peer cfg = inr server) ∧
  (status peer fs vars = 1 ↔ ∃ error, connect_to_server peer cfg = inl error) ∧
  (∀ peer',
     ((∃ server, connect_to_server peer' cfg = inr server) ↔
      (∃ server, connect_to_server peer cfg = inr server)) →
     status peer' fs vars = status peer fs vars).
Proof.
  intros status cfg.
  assert (Hstatus : ∀ q,
    (status q fs vars = 0 ↔ ∃ server, connect_to_server q cfg = inr server) ∧
    (status q fs vars = 1 ↔ ∃ error, connect_to_server q cfg = inl error)).
  { intros q. subst status cfg.
    destruct (connect_to_server q (connect_config py_repr object_id))
      as [error|server] eqn:Hconn.
    - rewrite (exit_status_refused _ _ _ _ _ error fs vars Hconn).
      split; split; try done; [intros [? [=]] | by exists error].
    - rewrite (exit_status_connected _ _ _ _ _ server fs vars Hconn).
      split; split; try done; [by exists server | intros [? [=]]]. }
  split; [apply Hstatus|]. split; [apply Hstatus|].
  intros peer' Hsame.
  destruct (connect_to_server peer cfg) as [error|server] eqn:Hconn.
  - destruct (connect_to_server peer' cfg) as [error'|server'] eqn:Hconn'.
    + transitivity 1; [|symmetry]; apply Hstatus; eauto.
    + destruct Hsame as [[? [=]] _]. eauto.
  - destruct (connect_to_server peer' cfg) as [error'|server'] eqn:Hconn'.
    + destruct Hsame as [_ [? [=]]]. eauto.
    + transitivity 0; [|symmetry]; apply Hstatus; eauto.
Qed.

(** C10 as stated, for every number, fails on floats: the square of
    [1e200] overflows to infinity, which stands for no number, and the
    product [0.1 * 0.1] is rounded to [0.010000000000000002], which is
    not the square of what [0.1] stands for. *)
Lemma compute_square_not_exact_on_floats :
  compute_square_number (Float 1e200) = Float infinity ∧
  ¬ squares_exactly (Float 1e200) ∧
  compute_square_number (Float 0.1) = Float 0.010000000000000002 ∧
  ¬ squares_exactly (Float 0.1).
Proof.
  split_and!.
  - reflexivity.
  - intros (x & y & _ & Hy & _). vm_compute in Hy. discriminate.
  - reflexivity.
  - intros (x & y & Hx & Hy & Heq).
    vm_compute in Hx, Hy. injection Hx as <-. injection Hy as <-.
    apply Qeq_bool_iff in Heq. vm_compute in Heq. discriminate.
Qed.

(** * Sample runs *)

(** Against a server that answers every call. *)
Example reference_run_stdout :
  stdout (snd (main "3.12.0" "linux" sample_repr 1 reference_peer (boot ∅ ∅))) =
    ["🔌 Connecting to Deno Hypha server...";
     "✅ Connected to Hypha server successfully!";
     "📍 Connected to workspace: default";
     "🆔 Client ID: python-test-client-1";
     LF +:+ "🧪 Testing echo service...";
     "Echo response: Hello from Python client!";
     LF +:+ "📊 Getting server info...";
     "Server info: <value>";
     LF +:+ "🌍 Testing hello service...";
     "Hello response: Hello, Python Client!";
     "Server time: 2024-01-01T00:00:00.000Z";
     LF +:+ "📝 Registering Python client service...";
     "✅ Service registered with ID: python-client-service:built-in";
     "Square(7) = <value>";
     LF +:+ "🎉 All tests completed successfully!";
     "Connection test passed - Deno WebSocket server is working! 🦕";
     LF +:+ "✅ Test passed!"].
Proof. reflexivity. Qed.

Example reference_run_status :
  exit_status "3.12.0" "linux" sample_repr 1 reference_peer ∅ ∅ = 0.
Proof. reflexivity. Qed.

(** Against a server that accepts the connection and nothing else. *)
Example bare_run_stdout :
  stdout (snd (main "3.12.0" "linux" sample_repr 1 bare_peer (boot ∅ ∅))) =
    ["🔌 Connecting to Deno Hypha server...";
     "✅ Connected to Hypha server successfully!";
     "📍 Connected to workspace: default";
     "🆔 Client ID: python-test-client-1";
     LF +:+ "🧪 Testing echo service...";
     "Echo service error: echo is not available";
     LF +:+ "📊 Getting server info...";
     "Server info error: get_server_info is not available";
     LF +:+ "🌍 Testing hello service...";
     "Hello service error: hello is not available";
     "Hello service (via get_service) error: Service not found";
     LF +:+ "📝 Registering Python client service...";
     "Service registration error: Permission denied";
     LF +:+ "🎉 All tests completed successfully!";
     "Connection test passed - Deno WebSocket server is working! 🦕";
     LF +:+ "✅ Test passed!"].
Proof. reflexivity. Qed.

Example bare_run_methods :
  methods (transcript "3.12.0" "linux" sample_repr 1 bare_peer ∅ ∅) =
    [m_connect_to_server; m_echo; m_get_server_info; m_hello; m_get_service;
     m_register_service].
Proof. reflexivity. Qed.

(** With no server listening. *)
Example unreachable_run_stdout :
  stdout (snd (main "3.12.0" "linux" sample_repr 1 unreachable_peer (boot ∅ ∅))) =
    ["🔌 Connecting to Deno Hypha server...";
     "❌ Failed to connect or execute: Connection refused";
     LF +:+ "❌ Test failed!"].
Proof. reflexivity. Qed.

Example unreachable_run_status :
  exit_status "3.12.0" "linux" sample_repr 1 unreachable_peer ∅ ∅ = 1.
Proof. reflexivity. Qed.

(** * The statements at sample peers *)

Lemma unreachable_server_fails_fast_witness :
  connect_to_server unreachable_peer (connect_config sample_repr 1) =
    inl (Exception "Connection refused") ∧
  (transcript "3.12.0" "linux" sample_repr 1 unreachable_peer ∅ ∅ =
     [Print "🔌 Connecting to Deno Hypha server...";
      Await (ConnectToServer (connect_config sample_repr 1))
            (inl (Exception "Connection refused"));
      Print ("❌ Failed to connect or execute: " +:+
             message (Exception "Connection refused"));
      Print (LF +:+ "❌ Test failed!")] ∧
   fst (asyncio_run
          (test_deno_server "3.12.0" "linux" sample_repr 1 unreachable_peer)
          (boot ∅ ∅)) = inr (Some false) ∧
   exit_status "3.12.0" "linux" sample_repr 1 unreachable_peer ∅ ∅ = 1 ∧
   methods (transcript "3.12.0" "linux" sample_repr 1 unreachable_peer ∅ ∅) =
     [m_connect_to_server]).
Proof.
  split; [reflexivity|].
  apply (unreachable_server_fails_fast "3.12.0" "linux" sample_repr 1
           unreachable_peer (Exception "Connection refused") ∅ ∅).
  reflexivity.
Defined.

Lemma hello_failure_takes_the_fallback_witness :
  connect_to_server bare_peer (connect_config sample_repr 1) = inr sample_server ∧
  (server_hello bare_peer sample_server "Python Client" =
     inl (Exception "hello is not available") ∨
   (∃ hello_response,
      server_hello bare_peer sample_server "Python Client" = inr hello_response) ∧
   server_get_time bare_peer sample_server =
     inl (Exception "hello is not available")) ∧
  ∃ pre failed post,
    transcript "3.12.0" "linux" sample_repr 1 bare_peer ∅ ∅ =
      pre ++
      [Await failed (inl (Exception "hello is not available"));
       Print ("Hello service error: " +:+
              message (Exception "hello is not available"));
       Await (GetService sample_server "hello-world")
             (answer PService
                (server_get_service bare_peer sample_server "hello-world"))] ++
      post ∧
    (failed = Hello sample_server "Python Client" ∨ failed = GetTime sample_server) ∧
    (m_get_service ∉ methods pre) ∧
    (∀ hello_service,
       server_get_service bare_peer sample_server "hello-world" = inr hello_service →
       ∃ post',
         post =
           Await (ServiceHello hello_service "Python Client")
                 (answer PValue
                    (service_hello bare_peer hello_service "Python Client")) ::
           post') ∧
    (∀ e2,
       (server_get_service bare_peer sample_server "hello-world" = inl e2 ∨
        ∃ hello_service,
          server_get_service bare_peer sample_server "hello-world" =
            inr hello_service ∧
          service_hello bare_peer hello_service "Python Client" = inl e2) →
       Print ("Hello service (via get_service) error: " +:+ message e2) ∈ post) ∧
    Await (RegisterService sample_server (python_client_service "3.12.0" "linux"))
          (answer PService
             (server_register_service bare_peer sample_server
                (python_client_service "3.12.0" "linux")))
      ∈ post ∧
    Print (LF +:+ "🎉 All tests completed successfully!") ∈ post ∧
    exit_status "3.12.0" "linux" sample_repr 1 bare_peer ∅ ∅ = 0.
Proof.
  split; [reflexivity|]. split; [left; reflexivity|].
  apply (hello_failure_takes_the_fallback "3.12.0" "linux" sample_repr 1
           bare_peer sample_server (Exception "hello is not available") ∅ ∅).
  - reflexivity.
  - left. reflexivity.
Defined.

Lemma echo_gives_back_the_literal_witness :
  connect_to_server reference_peer (connect_config sample_repr 1) =
    inr sample_server ∧
  (∀ s, server_echo reference_peer sample_server s = inr (VStr s)) ∧
  ∃ pre post,
    transcript "3.12.0" "linux" sample_repr 1 reference_peer ∅ ∅ =
      pre ++
      [Await (Echo sample_server "Hello from Python client!")
             (inr (PValue (VStr "Hello from Python client!")));
       Print "Echo response: Hello from Python client!"] ++
      post ∧
    (m_echo ∉ methods pre) ∧ (m_echo ∉ methods post).
Proof.
  split; [reflexivity|]. split; [intros s; reflexivity|].
  apply (echo_gives_back_the_literal "3.12.0" "linux" sample_repr 1
           reference_peer sample_server ∅ ∅).
  - reflexivity.
  - intros s. reflexivity.
Defined.

Lemma optional_steps_are_guarded_witness :
  connect_to_server bare_peer (connect_config sample_repr 1) = inr sample_server ∧
  Print ("Echo service error: " +:+ message (Exception "echo is not available"))
    ∈ transcript "3.12.0" "linux" sample_repr 1 bare_peer ∅ ∅ ∧
  Print ("Service registration error: " +:+ message (Exception "Permission denied"))
    ∈ transcript "3.12.0" "linux" sample_repr 1 bare_peer ∅ ∅ ∧
  [m_connect_to_server; m_echo; m_get_server_info; m_hello; m_register_service]
    `sublist_of` methods (transcript "3.12.0" "linux" sample_repr 1 bare_peer ∅ ∅) ∧
  exit_status "3.12.0" "linux" sample_repr 1 bare_peer ∅ ∅ = 0.
Proof.
  split; [reflexivity|].
  destruct (optional_steps_are_guarded "3.12.0" "linux" sample_repr 1
              bare_peer sample_server ∅ ∅ eq_refl)
    as (Hecho & _ & _ & _ & _ & Hregister & _ & Hsteps & _ & Hstatus).
  split; [apply Hecho; reflexivity|].
  split; [apply Hregister; reflexivity|].
  split; assumption.
Defined.

Lemma compute_square_follows_registration_witness :
  connect_to_server reference_peer (connect_config sample_repr 1) =
    inr sample_server ∧
  ∃ pre post,
    transcript "3.12.0" "linux" sample_repr 1 reference_peer ∅ ∅ =
      pre ++
      [Await (RegisterService sample_server (python_client_service "3.12.0" "linux"))
             (inr (PService (sample_service "python-client-service:built-in")));
       Print ("✅ Service registered with ID: " +:+
              py_str sample_repr (id (sample_service "python-client-service:built-in")));
       Await (ComputeSquare (sample_service "python-client-service:built-in") 7)
             (answer PValue
                (service_compute_square reference_peer
                   (sample_service "python-client-service:built-in") 7))] ++
      post ∧
    (m_register_service ∉ methods pre) ∧
    (m_compute_square ∉ methods pre) ∧
    (m_compute_square ∉ methods post).
Proof.
  split; [reflexivity|].
  apply (compute_square_follows_registration "3.12.0" "linux" sample_repr 1
           reference_peer sample_server ∅ ∅ eq_refl).
  reflexivity.
Defined.

Lemma registered_compute_square_of_7_witness :
  connect_to_server reference_peer (connect_config sample_repr 1) =
    inr sample_server ∧
  server_register_service reference_peer sample_server
    (python_client_service "3.12.0" "linux") =
    inr (sample_service "python-client-service:built-in") ∧
  service_compute_square reference_peer
    (sample_service "python-client-service:built-in") 7 =
    inr (VInt (api_compute_square (python_client_service "3.12.0" "linux") 7)) ∧
  Await (ComputeSquare (sample_service "python-client-service:built-in") 7)
        (inr (PValue (VInt 49)))
    ∈ transcript "3.12.0" "linux" sample_repr 1 reference_peer ∅ ∅ ∧
  Print ("Square(7) = " +:+ py_str sample_repr (VInt 49))
    ∈ transcript "3.12.0" "linux" sample_repr 1 reference_peer ∅ ∅.
Proof.
  split; [reflexivity|]. split; [reflexivity|]. split; [reflexivity|].
  apply (proj2 (registered_compute_square_of_7 "3.12.0" "linux" sample_repr 1
                  reference_peer)
           sample_server (sample_service "python-client-service:built-in") ∅ ∅);
    reflexivity.
Defined.

Lemma no_fallback_when_hello_and_time_resolve_witness :
  connect_to_server reference_peer (connect_config sample_repr 1) =
    inr sample_server ∧
  server_hello reference_peer sample_server "Python Client" =
    inr (VStr "Hello, Python Client!") ∧
  server_get_time reference_peer sample_server =
    inr (VStr "2024-01-01T00:00:00.000Z") ∧
  times_awaited m_get_service
    (transcript "3.12.0" "linux" sample_repr 1 reference_peer ∅ ∅) = 0%nat ∧
  times_awaited m_hello
    (transcript "3.12.0" "linux" sample_repr 1 reference_peer ∅ ∅) = 1%nat.
Proof.
  split; [reflexivity|]. split; [reflexivity|]. split; [reflexivity|].
  destruct (no_fallback_when_hello_and_time_resolve "3.12.0" "linux" sample_repr 1
              reference_peer sample_server (VStr "Hello, Python Client!")
              (VStr "2024-01-01T00:00:00.000Z") ∅ ∅ eq_refl eq_refl eq_refl)
    as (pre & post & _ & Hservice & Hhello).
  split; assumption.
Defined.

Lemma get_time_skipped_when_hello_raises_witness :
  connect_to_server bare_peer (connect_config sample_repr 1) = inr sample_server ∧
  server_hello bare_peer sample_server "Python Client" =
    inl (Exception "hello is not available") ∧
  times_awaited m_get_time
    (transcript "3.12.0" "linux" sample_repr 1 bare_peer ∅ ∅) = 0%nat.
Proof.
  split; [reflexivity|]. split; [reflexivity|].
  apply (get_time_skipped_when_hello_raises "3.12.0" "linux" sample_repr 1
           bare_peer sample_server (Exception "hello is not available") ∅ ∅);
    reflexivity.
Defined.

Lemma resolved_answers_are_printed_witness :
  connect_to_server reference_peer (connect_config sample_repr 1) =
    inr sample_server ∧
  Print ("Echo response: " +:+ py_str sample_repr (VStr "Hello from Python client!"))
    ∈ transcript "3.12.0" "linux" sample_repr 1 reference_peer ∅ ∅ ∧
  Print ("Server time: " +:+ py_str sample_repr (VStr "2024-01-01T00:00:00.000Z"))
    ∈ transcript "3.12.0" "linux" sample_repr 1 reference_peer ∅ ∅ ∧
  Print ("Square(7) = " +:+ py_str sample_repr (VInt (7 * 7)))
    ∈ transcript "3.12.0" "linux" sample_repr 1 reference_peer ∅ ∅.
Proof.
  split; [reflexivity|].
  destruct (resolved_answers_are_printed "3.12.0" "linux" sample_repr 1
              reference_peer sample_server ∅ ∅ eq_refl)
    as (Hecho & _ & _ & Htime & _ & _ & Hsquare).
  split; [apply Hecho; reflexivity|].
  split; [apply (Htime (VStr "Hello, Python Client!")); reflexivity|].
  apply (Hsquare (sample_service "python-client-service:built-in")); reflexivity.
Defined.

Lemma hello_awaited_twice_after_get_time_fails_witness :
  connect_to_server partial_peer (connect_config sample_repr 1) = inr sample_server ∧
  server_hello partial_peer sample_server "Python Client" =
    inr (VStr "Hello, Python Client!") ∧
  server_get_time partial_peer sample_server =
    inl (Exception "get_time is not available") ∧
  server_get_service partial_peer sample_server "hello-world" =
    inr (sample_service "hello-world") ∧
  service_hello partial_peer (sample_service "hello-world") "Python Client" =
    inr (VStr "Hello, Python Client!") ∧
  times_awaited m_hello
    (transcript "3.12.0" "linux" sample_repr 1 partial_peer ∅ ∅) = 2%nat.
Proof.
  do 5 (split; [reflexivity|]).
  destruct (hello_awaited_twice_after_get_time_fails "3.12.0" "linux" sample_repr 1
              partial_peer sample_server (VStr "Hello, Python Client!")
              (Exception "get_time is not available") (sample_service "hello-world")
              (VStr "Hello, Python Client!") ∅ ∅
              eq_refl eq_refl eq_refl eq_refl eq_refl)
    as (pre & post & _ & Htwice).
  exact Htwice.
Defined.

Lemma compute_square_failure_reported_as_registration_error_witness :
  connect_to_server partial_peer (connect_config sample_repr 1) = inr sample_server ∧
  server_register_service partial_peer sample_server
    (python_client_service "3.12.0" "linux") =
    inr (sample_service "python-client-service:built-in") ∧
  service_compute_square partial_peer
    (sample_service "python-client-service:built-in") 7 =
    inl (Exception "Method call timed out") ∧
  ∃ pre,
    transcript "3.12.0" "linux" sample_repr 1 partial_peer ∅ ∅ =
      pre ++
      [Await (RegisterService sample_server (python_client_service "3.12.0" "linux"))
             (inr (PService (sample_service "python-client-service:built-in")));
       Print ("✅ Service registered with ID: " +:+
              py_str sample_repr (id (sample_service "python-client-service:built-in")));
       Await (ComputeSquare (sample_service "python-client-service:built-in") 7)
             (inl (Exception "Method call timed out"));
       Print ("Service registration error: " +:+
              message (Exception "Method call timed out"));
       Print (LF +:+ "🎉 All tests completed successfully!");
       Print "Connection test passed - Deno WebSocket server is working! 🦕";
       Print (LF +:+ "✅ Test passed!")].
Proof.
  do 3 (split; [reflexivity|]).
  apply (compute_square_failure_reported_as_registration_error
           "3.12.0" "linux" sample_repr 1 partial_peer sample_server
           (sample_service "python-client-service:built-in")
           (Exception "Method call timed out") ∅ ∅);
    reflexivity.
Defined.

Lemma transcript_when_every_call_resolves_witness :
  connect_to_server reference_peer (connect_config sample_repr 1) =
    inr sample_server ∧
  server_echo reference_peer sample_server "Hello from Python client!" =
    inr (VStr "Hello from Python client!") ∧
  server_get_server_info reference_peer sample_server =
    inr (VDict [("name", VStr "Deno Hypha Server")]) ∧
  server_hello reference_peer sample_server "Python Client" =
    inr (VStr "Hello, Python Client!") ∧
  server_get_time reference_peer sample_server =
    inr (VStr "2024-01-01T00:00:00.000Z") ∧
  server_register_service reference_peer sample_server
    (python_client_service "3.12.0" "linux") =
    inr (sample_service "python-client-service:built-in") ∧
  service_compute_square reference_peer
    (sample_service "python-client-service:built-in") 7 = inr (VInt 49) ∧
  length (transcript "3.12.0" "linux" sample_repr 1 reference_peer ∅ ∅) = 24%nat ∧
  exit_status "3.12.0" "linux" sample_repr 1 reference_peer ∅ ∅ = 0.
Proof.
  do 7 (split; [reflexivity|]).
  destruct (transcript_when_every_call_resolves "3.12.0" "linux" sample_repr 1
              reference_peer sample_server (VStr "Hello from Python client!")
              (VDict [("name", VStr "Deno Hypha Server")])
              (VStr "Hello, Python Client!") (VStr "2024-01-01T00:00:00.000Z")
              (sample_service "python-client-service:built-in") (VInt 49) ∅ ∅
              eq_refl eq_refl eq_refl eq_refl eq_refl eq_refl eq_refl)
    as [Htranscript Hstatus].
  split; [|exact Hstatus].
  rewrite Htranscript. reflexivity.
Defined.
